(** * polls: the recency predicate of [Question] and [Choice]

    A shallow embedding of [polls/models.py] and of the fixture helper of
    [polls/tests.py], followed by the properties the specification states
    about them.  The views, routes and templates the tests exercise are not
    among the sources; they are modelled from the specification and marked
    as such.

    Conventions of the embedding.
    - A [datetime.datetime] is an aware one, as [timezone.now()] returns it
      and a [DateTimeField] holds it: the number of microseconds since the
      epoch, a [Z].  A [datetime.timedelta] is a number of microseconds.
      The bounds of Python's calendar (years 1 to 9999) are left out: the
      clock is nowhere near them.
    - A model method is a computation over its receiver [self]: it reads the
      clock ([timezone.now()]), may raise, and returns the receiver it leaves
      behind.  Nothing is assumed about the receiver being left alone; that
      is proved.
    - A nullable attribute is an [option]; [None] is Python's [None]. *)

From Stdlib Require Import ZArith List String Ascii Bool Lia.
From Stdlib Require Import Sorting.Sorted Sorting.Permutation.
Import ListNotations.

Open Scope Z_scope.

(** ** [datetime] *)

Definition datetime : Type := Z.
Definition timedelta_t : Type := Z.

(** [datetime.timedelta(days=…, hours=…, minutes=…, seconds=…)], normalised to
    microseconds. *)
Definition timedelta (days hours minutes seconds : Z) : timedelta_t :=
  (((days * 24 + hours) * 60 + minutes) * 60 + seconds) * 1000000.

(** ** Exceptions and method computations *)

Inductive exn : Type :=
| TypeError.

Inductive result (A : Type) : Type :=
| Ok (a : A)
| Raise (e : exn).

Arguments Ok {A} a.
Arguments Raise {A} e.

(** A method body: given what [timezone.now()] answers and the receiver, a
    result (or an exception) and the receiver afterwards. *)
Definition M (Self A : Type) : Type := datetime -> Self -> result A * Self.

Section Method.
Context {Self : Type}.

Definition ret {A} (a : A) : M Self A := fun _ self => (Ok a, self).

Definition bind {A B} (m : M Self A) (k : A -> M Self B) : M Self B :=
  fun now self =>
    match m now self with
    | (Ok a, self') => k a now self'
    | (Raise e, self') => (Raise e, self')
    end.

Definition raise {A} (e : exn) : M Self A := fun _ self => (Raise e, self).

(** [timezone.now()] *)
Definition timezone_now : M Self datetime := fun now self => (Ok now, self).

(** [self.<attr>] *)
Definition getattr {A} (attr : Self -> A) : M Self A :=
  fun _ self => (Ok (attr self), self).

(** [a <= b] on values that are a [datetime] or [None]: Python orders two
    datetimes and raises [TypeError] when either side is [None]. *)
Definition py_le (a b : option datetime) : M Self bool :=
  match a, b with
  | Some x, Some y => ret (x <=? y)
  | _, _ => raise TypeError
  end.

(** [a <= b <= c]: [b] is evaluated once, and [b <= c] is evaluated only
    when [a <= b] holds. *)
Definition py_chain_le (a b c : option datetime) : M Self bool :=
  bind (py_le a b) (fun ab => if ab then py_le b c else ret false).

(** [x and y] on booleans: [y] is evaluated only when [x] is true. *)
Definition py_and (x : bool) (y : M Self bool) : M Self bool :=
  if x then y else ret false.
End Method.

Notation "x <- m ;; k" := (bind m (fun x => k))
  (at level 61, m at next level, right associativity).

(** The value a run returns and the receiver it leaves. *)
Definition value {Self A} (r : result A * Self) : result A := fst r.
Definition receiver {Self A} (r : result A * Self) : Self := snd r.

(** ** [class Question(models.Model)] *)

Module Question.
(** An instance.  [pub_date] is declared without [null=True], so a saved
    row always has one; an instance built without it holds [None]. *)
Record t : Type := {
  question_text : string;
  pub_date : option datetime;
  author_name : option string
}.

Definition __str__ : M t string := getattr question_text.

Definition was_published_recently : M t bool :=
  now <- timezone_now ;;
  d <- getattr pub_date ;;
  py_chain_le (Some (now - timedelta 1 0 0 0)) d (Some now).
End Question.

(** ** [class Choice(models.Model)] *)

Module Choice.
Record t : Type := {
  question : Z;                     (* ForeignKey(Question): its key *)
  choice_text : string;
  votes : Z;                        (* IntegerField(default=0) *)
  pub_date : option datetime        (* null=True *)
}.

(** [Choice(question=…, choice_text=…, votes=…, pub_date=…)]: an argument
    left out takes the field's default. *)
Definition __init__ (question : Z) (choice_text : string)
    (votes : option Z) (pub_date : option datetime) : t :=
  {| question := question;
     choice_text := choice_text;
     votes := match votes with Some v => v | None => 0 end;
     pub_date := pub_date |}.

Definition __str__ : M t string := getattr choice_text.

Definition was_published_recently : M t bool :=
  now <- timezone_now ;;
  d <- getattr pub_date ;;
  py_and (match d with Some _ => true | None => false end)
         (d' <- getattr pub_date ;;
          py_chain_le (Some (now - timedelta 1 0 0 0)) d' (Some now)).
End Choice.

(** ** The persisted questions *)

(** A row of the [Question] table: the surrogate key and the declared
    columns.  [pub_date] is [NOT NULL] ([DateTimeField] without
    [null=True]). *)
Record QuestionRow : Type := {
  id : Z;
  question_text : string;
  pub_date : datetime;
  author_name : option string
}.

(** The table, oldest insertion first, and the next key the store hands
    out. *)
Record DB : Type := {
  questions : list QuestionRow;
  next_id : Z
}.

Definition empty_db : DB := {| questions := []; next_id := 1 |}.

(** [Question.objects.create(question_text=…, pub_date=…)]: the row gets a
    fresh key and goes after the rows already there. *)
Definition objects_create (question_text : string) (pub_date : datetime)
    (db : DB) : QuestionRow * DB :=
  let q := {| id := next_id db;
              question_text := question_text;
              pub_date := pub_date;
              author_name := None |} in
  (q, {| questions := questions db ++ [q]; next_id := next_id db + 1 |}).

(** [create_question(question_text, days)] of [polls/tests.py]. *)
Definition create_question (question_text : string) (days : Z)
    (now : datetime) (db : DB) : QuestionRow * DB :=
  let time := now + timedelta days 0 0 0 in
  objects_create question_text time db.

(** Keys are unique and below the next key to hand out. *)
Definition db_wf (db : DB) : Prop :=
  NoDup (map id (questions db)) /\
  Forall (fun q => id q < next_id db) (questions db).

(** ** The views *)

(** [sub in s], as [assertContains] looks for [sub] in a response body. *)
Fixpoint contains (sub s : string) : bool :=
  if String.prefix sub s then true
  else match s with
       | EmptyString => false
       | String _ s' => contains sub s'
       end.

(** Modelled from the spec: the filter of the queries of the absent
    [polls/views.py]: "Questions whose [pub_date] ≤ now". *)
Definition published (now : datetime) (q : QuestionRow) : bool :=
  pub_date q <=? now.

(** Modelled from the spec: one step of the ordering of the index query of
    the absent [polls/views.py].  [x] goes in front of the first row that is
    not strictly newer, so the rows of [x]'s date that are already placed
    (they were created after [x]) stay behind it. *)
Fixpoint insert_newest_first (x : QuestionRow) (l : list QuestionRow)
    : list QuestionRow :=
  match l with
  | [] => [x]
  | y :: l' =>
      if pub_date x <? pub_date y then y :: insert_newest_first x l'
      else x :: y :: l'
  end.

(** Modelled from the spec: the ordering of the index query of the absent
    [polls/views.py]: "order descending by [pub_date] (ties broken by
    insertion/creation order as a stable secondary key)". *)
Definition order_by_pub_date_desc (l : list QuestionRow) : list QuestionRow :=
  fold_right insert_newest_first [] l.

(** Modelled from the spec: the index query of the absent [polls/views.py]:
    "select all Questions whose [pub_date] ≤ now, order descending by
    [pub_date]". *)
Definition latest_question_list (now : datetime) (db : DB)
    : list QuestionRow :=
  order_by_pub_date_desc (filter (published now) (questions db)).

(** [a] may stand in front of [b] in a list that is newest first. *)
Definition newer_or_same (a b : QuestionRow) : Prop :=
  pub_date b <= pub_date a.

(** What a view hands to its template. *)
Inductive Context : Type :=
| IndexContext (latest_question_list : list QuestionRow)
| DetailContext (question : QuestionRow).

(** What a GET is answered with: a rendered page, or the not-found
    condition. *)
Inductive Response : Type :=
| HttpResponse (content : string) (context : Context)
| Http404.

Definition status_code (r : Response) : Z :=
  match r with
  | HttpResponse _ _ => 200
  | Http404 => 404
  end.

Inductive Request : Type :=
| GetIndex                 (* polls:index *)
| GetDetail (pk : Z).      (* polls:detail *)

Definition no_polls_message : string := "No polls are available.".

Definition newline : string := String (ascii_of_nat 10) EmptyString.

Section Views.
(** The markup of the absent templates around what a page shows. *)
Variables page_head page_foot : string.

Definition page (body : string) : string :=
  (page_head ++ body ++ page_foot)%string.

(** Modelled from the spec: the index view of the absent [polls/views.py]
    and its template: "GET index → 200 with a [latest_question_list]
    context value (possibly empty)", "render an empty-state message when
    the result set is empty". *)
Definition index (now : datetime) (db : DB) : Response :=
  let l := latest_question_list now db in
  HttpResponse
    (page match l with
          | [] => no_polls_message
          | _ => String.concat newline (map question_text l)
          end)
    (IndexContext l).

(** Modelled from the spec: the detail view of the absent
    [polls/views.py]: "fetch a single Question by identity; if its
    [pub_date] is in the future (or it does not exist), surface a not-found
    condition", "GET detail/<id> → 200 with question text". *)
Definition detail (now : datetime) (db : DB) (pk : Z) : Response :=
  match find (fun q => id q =? pk) (questions db) with
  | Some q =>
      if published now q
      then HttpResponse (page (question_text q)) (DetailContext q)
      else Http404
  | None => Http404
  end.

(** Modelled from the spec: the routes [polls:index] and [polls:detail] of
    the absent [polls/urls.py]. *)
Definition get (now : datetime) (db : DB) (r : Request) : Response :=
  match r with
  | GetIndex => index now db
  | GetDetail pk => detail now db pk
  end.
End Views.

(** ** Instances of [Question] and the store *)

Module Model.
(** [Question(question_text=..., pub_date=..., author_name=...)]: an
    argument left out takes the field's default, the empty string for
    [question_text] and [None] for [pub_date] and [author_name]. *)
Definition __init__ (question_text : option string)
    (pub_date : option datetime) (author_name : option string)
    : Question.t :=
  {| Question.question_text :=
       match question_text with Some s => s | None => EmptyString end;
     Question.pub_date := pub_date;
     Question.author_name := author_name |}.

(** [self.save()] on an instance that was never saved: an insertion under a
    fresh key.  The store refuses a row without [pub_date] (the column is
    [NOT NULL]); [None] stands for that refusal. *)
Definition save (self : Question.t) (db : DB) : option (QuestionRow * DB) :=
  match Question.pub_date self with
  | Some d =>
      let q := {| id := next_id db;
                  question_text := Question.question_text self;
                  pub_date := d;
                  author_name := Question.author_name self |} in
      Some (q, {| questions := questions db ++ [q];
                  next_id := next_id db + 1 |})
  | None => None
  end.

End Model.

(** ** [class QuestionModelTests(TestCase)] *)

(** How a test method ends. *)
Inductive outcome : Type :=
| Pass
| Fail
| Error.

(** [self.assertIs(r, expected)] on a boolean: an exception raised while
    [r] is computed ends the test in error. *)
Definition assertIs (r : result bool) (expected : bool) : outcome :=
  match r with
  | Ok b => if Bool.eqb b expected then Pass else Fail
  | Raise _ => Error
  end.

(** The clock is read twice in each test: [now0] is what [timezone.now()]
    answers in the test body, [now1] what it answers inside
    [was_published_recently()]. *)
Module QuestionModelTests.
Definition test_was_published_recently_with_future_question
    (now0 now1 : datetime) (db : DB) : outcome :=
  let time := now0 + timedelta 30 0 0 0 in
  let future_question := Model.__init__ None (Some time) None in
  match Model.save future_question db with
  | Some _ =>
      assertIs
        (value (Question.was_published_recently now1 future_question)) false
  | None => Error
  end.

Definition test_was_published_recently_with_old_question
    (now0 now1 : datetime) (db : DB) : outcome :=
  let time := now0 - timedelta 1 0 0 1 in
  let old_question := Model.__init__ None (Some time) None in
  match Model.save old_question db with
  | Some _ =>
      assertIs
        (value (Question.was_published_recently now1 old_question)) false
  | None => Error
  end.

Definition test_was_published_recently_with_recent_question
    (now0 now1 : datetime) (db : DB) : outcome :=
  let time := now0 - timedelta 0 23 59 59 in
  let recent_question := Model.__init__ None (Some time) None in
  match Model.save recent_question db with
  | Some _ =>
      assertIs
        (value (Question.was_published_recently now1 recent_question)) true
  | None => Error
  end.
End QuestionModelTests.

(** * Properties *)

(** ** The recency predicate *)

Example timedelta_one_day : timedelta 1 0 0 0 = 86400000000.
Proof. reflexivity. Qed.

Example timedelta_one_day_one_second :
  timedelta 1 0 0 1 = timedelta 1 0 0 0 + 1000000.
Proof. reflexivity. Qed.

(** What one run of the method of [Question] amounts to. *)
Lemma question_run (now : datetime) (q : Question.t) :
  Question.was_published_recently now q =
  (match Question.pub_date q with
   | Some t => Ok ((now - timedelta 1 0 0 0 <=? t) && (t <=? now))
   | None => Raise TypeError
   end, q).
Proof.
  unfold Question.was_published_recently, bind, timezone_now, getattr,
    py_chain_le, py_le, bind, ret, raise.
  destruct (Question.pub_date q) as [t|]; [|reflexivity].
  destruct (now - timedelta 1 0 0 0 <=? t); reflexivity.
Qed.

(** What one run of the method of [Choice] amounts to. *)
Lemma choice_run (now : datetime) (c : Choice.t) :
  Choice.was_published_recently now c =
  (match Choice.pub_date c with
   | Some t => Ok ((now - timedelta 1 0 0 0 <=? t) && (t <=? now))
   | None => Ok false
   end, c).
Proof.
  destruct c as [k txt v [t|]]; [|reflexivity].
  unfold Choice.was_published_recently, bind, timezone_now, getattr, py_and,
    py_chain_le, py_le, bind, ret, raise; simpl.
  destruct (now - timedelta 1 0 0 0 <=? t); reflexivity.
Qed.

Lemma in_window_true (now t : datetime) :
  (now - timedelta 1 0 0 0 <=? t) && (t <=? now) = true <->
  now - timedelta 1 0 0 0 <= t <= now.
Proof. rewrite andb_true_iff, !Z.leb_le. tauto. Qed.

Lemma Ok_inj {A} (a b : A) : Ok a = Ok b <-> a = b.
Proof. split; [intros H; injection H; auto | intros ->; reflexivity]. Qed.

(** The three cases of [QuestionModelTests], the fixture and the call taken
    at one instant. *)
Example test_was_published_recently_with_future_question :
  let now := 1762250000000000 in
  let future_question :=
    {| Question.question_text := ""; Question.author_name := None;
       Question.pub_date := Some (now + timedelta 30 0 0 0) |} in
  value (Question.was_published_recently now future_question) = Ok false.
Proof. reflexivity. Qed.

Example test_was_published_recently_with_old_question :
  let now := 1762250000000000 in
  let old_question :=
    {| Question.question_text := ""; Question.author_name := None;
       Question.pub_date := Some (now - timedelta 1 0 0 1) |} in
  value (Question.was_published_recently now old_question) = Ok false.
Proof. reflexivity. Qed.

Example test_was_published_recently_with_recent_question :
  let now := 1762250000000000 in
  let recent_question :=
    {| Question.question_text := ""; Question.author_name := None;
       Question.pub_date := Some (now - timedelta 0 23 59 59) |} in
  value (Question.was_published_recently now recent_question) = Ok true.
Proof. reflexivity. Qed.

(** C1.  On a [Question] whose [pub_date] is the timestamp [t], at the
    instant [now], [was_published_recently()] returns a boolean, and it is
    [True] exactly when [now - 1 day <= t <= now].  Both ends belong to the
    window: [t = now - 1 day] and [t = now] give [True]; one second before
    the window ([now - 1 day - 1 s]) and every future [t] give [False]. *)
Theorem question_recent_iff (now : datetime) (q : Question.t) (t : datetime) :
  Question.pub_date q = Some t ->
  (exists b, value (Question.was_published_recently now q) = Ok b) /\
  (value (Question.was_published_recently now q) = Ok true <->
   now - timedelta 1 0 0 0 <= t <= now) /\
  (t = now - timedelta 1 0 0 0 ->
   value (Question.was_published_recently now q) = Ok true) /\
  (t = now ->
   value (Question.was_published_recently now q) = Ok true) /\
  (t = now - timedelta 1 0 0 1 ->
   value (Question.was_published_recently now q) = Ok false) /\
  (now < t ->
   value (Question.was_published_recently now q) = Ok false).
Proof.
  intros Hq. rewrite question_run, Hq. unfold value; simpl fst.
  assert (Hday : timedelta 1 0 0 0 = 86400000000) by reflexivity.
  assert (Hsec : timedelta 1 0 0 1 = 86400000000 + 1000000) by reflexivity.
  refine (conj _ (conj _ (conj _ (conj _ (conj _ _))))).
  - eexists; reflexivity.
  - rewrite Ok_inj, in_window_true. reflexivity.
  - intros ->. apply Ok_inj, in_window_true. lia.
  - intros ->. apply Ok_inj, in_window_true. lia.
  - intros ->. apply Ok_inj, andb_false_iff. left. apply Z.leb_gt. lia.
  - intros H. apply Ok_inj, andb_false_iff. right. apply Z.leb_gt. lia.
Qed.

Lemma question_recent_iff_witness :
  value (Question.was_published_recently 1762250000000000
           {| Question.question_text := "What's new?";
              Question.pub_date := Some (1762250000000000 - 3600000000);
              Question.author_name := None |}) = Ok true.
Proof.
  apply (proj1 (proj2 (question_recent_iff 1762250000000000
           {| Question.question_text := "What's new?";
              Question.pub_date := Some (1762250000000000 - 3600000000);
              Question.author_name := None |}
           (1762250000000000 - 3600000000) eq_refl))).
  vm_compute. split; discriminate.
Defined.

(** C2.  On a [Choice] whose [pub_date] is [None],
    [was_published_recently()] returns [False]; and on no [Choice], at no
    instant, does it raise. *)
Theorem choice_null_is_false (now : datetime) (c : Choice.t) :
  (Choice.pub_date c = None ->
   value (Choice.was_published_recently now c) = Ok false) /\
  (exists b, value (Choice.was_published_recently now c) = Ok b) /\
  (forall e, value (Choice.was_published_recently now c) <> Raise e).
Proof.
  rewrite choice_run. unfold value; simpl fst.
  destruct (Choice.pub_date c) as [t|].
  - split; [discriminate|]. split; [eexists; reflexivity | discriminate].
  - split; [reflexivity|]. split; [eexists; reflexivity | discriminate].
Qed.

Lemma choice_null_is_false_witness :
  value (Choice.was_published_recently 1762250000000000
           (Choice.__init__ 1 "Not much" None None)) = Ok false.
Proof.
  exact (proj1 (choice_null_is_false 1762250000000000
                  (Choice.__init__ 1 "Not much" None None)) eq_refl).
Defined.

(** C3.  At one instant, on a [Choice] and a [Question] that hold the same
    timestamp, the two methods return the same result.  The null check is
    the only difference: with [None] on both sides, [Choice] answers
    [False] where [Question] raises. *)
Theorem choice_agrees_with_question
    (now : datetime) (c : Choice.t) (q : Question.t) :
  (forall t, Choice.pub_date c = Some t -> Question.pub_date q = Some t ->
     value (Choice.was_published_recently now c) =
     value (Question.was_published_recently now q)) /\
  (Choice.pub_date c = None -> Question.pub_date q = None ->
     value (Choice.was_published_recently now c) = Ok false /\
     value (Question.was_published_recently now q) = Raise TypeError).
Proof.
  rewrite choice_run, question_run. unfold value; simpl fst. split.
  - intros t -> ->. reflexivity.
  - intros -> ->. split; reflexivity.
Qed.

Lemma choice_agrees_with_question_witness :
  value (Choice.was_published_recently 1762250000000000
           (Choice.__init__ 1 "Not much" None (Some 1762200000000000))) =
  value (Question.was_published_recently 1762250000000000
           {| Question.question_text := "What's new?";
              Question.pub_date := Some 1762200000000000;
              Question.author_name := None |}).
Proof.
  exact (proj1 (choice_agrees_with_question 1762250000000000
                  (Choice.__init__ 1 "Not much" None (Some 1762200000000000))
                  {| Question.question_text := "What's new?";
                     Question.pub_date := Some 1762200000000000;
                     Question.author_name := None |})
               1762200000000000 eq_refl eq_refl).
Defined.

(** C4.  Given the instant, the result depends on [pub_date] alone: two
    entities that agree on [pub_date] get the same result, whatever their
    other fields.  And a run leaves the entity as it found it, every field
    included. *)
Theorem recency_pure_deterministic (now : datetime) :
  (forall q1 q2, Question.pub_date q1 = Question.pub_date q2 ->
     value (Question.was_published_recently now q1) =
     value (Question.was_published_recently now q2)) /\
  (forall q, receiver (Question.was_published_recently now q) = q) /\
  (forall c1 c2, Choice.pub_date c1 = Choice.pub_date c2 ->
     value (Choice.was_published_recently now c1) =
     value (Choice.was_published_recently now c2)) /\
  (forall c, receiver (Choice.was_published_recently now c) = c).
Proof.
  refine (conj _ (conj _ (conj _ _))).
  - intros q1 q2 H. rewrite !question_run. unfold value; simpl. now rewrite H.
  - intros q. rewrite question_run. reflexivity.
  - intros c1 c2 H. rewrite !choice_run. unfold value; simpl. now rewrite H.
  - intros c. rewrite choice_run. reflexivity.
Qed.

Lemma recency_pure_deterministic_witness :
  value (Question.was_published_recently 1762250000000000
           {| Question.question_text := "What's new?";
              Question.pub_date := Some 1762200000000000;
              Question.author_name := None |}) =
  value (Question.was_published_recently 1762250000000000
           {| Question.question_text := "What's up?";
              Question.pub_date := Some 1762200000000000;
              Question.author_name := Some "Ana"%string |}).
Proof.
  exact (proj1 (recency_pure_deterministic 1762250000000000)
           {| Question.question_text := "What's new?";
              Question.pub_date := Some 1762200000000000;
              Question.author_name := None |}
           {| Question.question_text := "What's up?";
              Question.pub_date := Some 1762200000000000;
              Question.author_name := Some "Ana"%string |}
           eq_refl).
Defined.

(** C9.  [Question.was_published_recently()] has no null guard: on a
    [Question] whose [pub_date] is [None] the comparison raises
    [TypeError]; on one whose [pub_date] is set it returns a boolean. *)
Theorem question_null_raises (now : datetime) (q : Question.t) :
  (Question.pub_date q = None ->
   value (Question.was_published_recently now q) = Raise TypeError) /\
  (forall t, Question.pub_date q = Some t ->
   exists b, value (Question.was_published_recently now q) = Ok b).
Proof.
  rewrite question_run. unfold value; simpl fst. split.
  - intros ->. reflexivity.
  - intros t ->. eexists; reflexivity.
Qed.

Lemma question_null_raises_witness :
  value (Question.was_published_recently 1762250000000000
           {| Question.question_text := "What's new?";
              Question.pub_date := None;
              Question.author_name := None |}) = Raise TypeError.
Proof.
  exact (proj1 (question_null_raises 1762250000000000
           {| Question.question_text := "What's new?";
              Question.pub_date := None;
              Question.author_name := None |}) eq_refl).
Defined.

(** C10.  At a fixed instant the predicate is monotone on past timestamps:
    with [t <= t' <= now], if it is [True] on an entity dated [t], it is
    [True] on one dated [t'].  This holds for [Question] and for
    [Choice]. *)
Theorem recency_monotone (now t t' : datetime) :
  t <= t' <= now ->
  (forall q q', Question.pub_date q = Some t -> Question.pub_date q' = Some t' ->
     value (Question.was_published_recently now q) = Ok true ->
     value (Question.was_published_recently now q') = Ok true) /\
  (forall c c', Choice.pub_date c = Some t -> Choice.pub_date c' = Some t' ->
     value (Choice.was_published_recently now c) = Ok true ->
     value (Choice.was_published_recently now c') = Ok true).
Proof.
  intros Hle. split.
  - intros q q' Hq Hq'. rewrite !question_run, Hq, Hq'. unfold value; simpl fst.
    rewrite !Ok_inj, !in_window_true. lia.
  - intros c c' Hc Hc'. rewrite !choice_run, Hc, Hc'. unfold value; simpl fst.
    rewrite !Ok_inj, !in_window_true. lia.
Qed.

Lemma recency_monotone_witness :
  value (Choice.was_published_recently 1762250000000000
           (Choice.__init__ 1 "The sky" None (Some 1762240000000000)))
  = Ok true.
Proof.
  refine (proj2 (recency_monotone 1762250000000000
                   1762200000000000 1762240000000000 _)
            (Choice.__init__ 1 "Not much" None (Some 1762200000000000))
            (Choice.__init__ 1 "The sky" None (Some 1762240000000000))
            eq_refl eq_refl eq_refl).
  lia.
Defined.

(** ** [votes] *)

(** A [Choice] can hold a negative [votes]: [IntegerField] takes any
    integer. *)
Lemma choice_votes_can_be_negative :
  Choice.votes (Choice.__init__ 1 "Not much" (Some (-1)) None) < 0.
Proof. reflexivity. Qed.

(** C8, amended.  [votes] is an integer; a [Choice] created without [votes]
    has [votes = 0]; and no method of the model changes [votes], so none
    turns a non-negative [votes] into a negative one. *)
Theorem choice_votes_default_and_kept :
  (forall k txt d, Choice.votes (Choice.__init__ k txt None d) = 0) /\
  (forall k txt v d, Choice.votes (Choice.__init__ k txt (Some v) d) = v) /\
  (forall now c,
     Choice.votes (receiver (Choice.was_published_recently now c)) =
     Choice.votes c /\
     Choice.votes (receiver (Choice.__str__ now c)) = Choice.votes c) /\
  (forall now c, 0 <= Choice.votes c ->
     0 <= Choice.votes (receiver (Choice.was_published_recently now c)) /\
     0 <= Choice.votes (receiver (Choice.__str__ now c))).
Proof.
  refine (conj _ (conj _ (conj _ _))).
  - reflexivity.
  - reflexivity.
  - intros now c. rewrite choice_run. split; reflexivity.
  - intros now c H. rewrite choice_run. split; exact H.
Qed.

Lemma choice_votes_default_and_kept_witness :
  0 <= Choice.votes
         (receiver (Choice.was_published_recently 1762250000000000
                      (Choice.__init__ 1 "Not much" None None))).
Proof.
  refine (proj1 (proj2 (proj2 (proj2 choice_votes_default_and_kept))
                   1762250000000000
                   (Choice.__init__ 1 "Not much" None None) _)).
  simpl. lia.
Defined.

(** ** The store *)

Lemma empty_db_wf : db_wf empty_db.
Proof. split; simpl; constructor. Qed.

(** [Question.objects.create] keeps the keys unique. *)
Lemma objects_create_wf (txt : string) (d : datetime) (db : DB) :
  db_wf db -> db_wf (snd (objects_create txt d db)).
Proof.
  intros [Hnd Hlt]. unfold db_wf, objects_create; simpl. split.
  - rewrite map_app; simpl.
    apply NoDup_rev in Hnd. rewrite <- (rev_involutive (_ ++ _)).
    apply NoDup_rev. rewrite rev_app_distr; simpl.
    constructor; [|exact Hnd].
    rewrite <- in_rev, in_map_iff. intros (q & Hid & Hin).
    rewrite Forall_forall in Hlt. specialize (Hlt q Hin). lia.
  - apply Forall_app. split.
    + eapply Forall_impl; [|exact Hlt]. simpl. intros; lia.
    + constructor; [simpl; lia | constructor].
Qed.

Lemma create_question_wf (txt : string) (days : Z) (now : datetime) (db : DB) :
  db_wf db -> db_wf (snd (create_question txt days now db)).
Proof. apply objects_create_wf. Qed.

(** ** The ordering of the index *)

Lemma insert_newest_first_perm (x : QuestionRow) (l : list QuestionRow) :
  Permutation (insert_newest_first x l) (x :: l).
Proof.
  induction l as [|y l IH]; simpl.
  - apply Permutation_refl.
  - destruct (pub_date x <? pub_date y).
    + eapply perm_trans; [apply perm_skip, IH | apply perm_swap].
    + apply Permutation_refl.
Qed.

Lemma order_by_pub_date_desc_perm (l : list QuestionRow) :
  Permutation (order_by_pub_date_desc l) l.
Proof.
  induction l as [|x l IH]; simpl.
  - constructor.
  - eapply perm_trans; [apply insert_newest_first_perm | apply perm_skip, IH].
Qed.

Lemma insert_newest_first_sorted (x : QuestionRow) (l : list QuestionRow) :
  StronglySorted newer_or_same l ->
  StronglySorted newer_or_same (insert_newest_first x l).
Proof.
  induction l as [|y l IH]; simpl; intros Hs.
  - repeat constructor.
  - inversion Hs as [|? ? Hl Hy]; subst.
    destruct (pub_date x <? pub_date y) eqn:E.
    + apply Z.ltb_lt in E. constructor; [auto|].
      eapply Permutation_Forall.
      * apply Permutation_sym, insert_newest_first_perm.
      * constructor; [unfold newer_or_same; lia | exact Hy].
    + apply Z.ltb_ge in E. constructor; [exact Hs|].
      constructor; [exact E|].
      eapply Forall_impl; [|exact Hy]. unfold newer_or_same. intros; lia.
Qed.

Lemma order_by_pub_date_desc_sorted (l : list QuestionRow) :
  StronglySorted newer_or_same (order_by_pub_date_desc l).
Proof.
  induction l as [|x l IH]; simpl.
  - constructor.
  - apply insert_newest_first_sorted, IH.
Qed.

(** Rows of one date keep their order through an insertion... *)
Lemma insert_newest_first_same_date
    (d : datetime) (x : QuestionRow) (l : list QuestionRow) :
  filter (fun q => pub_date q =? d) (insert_newest_first x l) =
  filter (fun q => pub_date q =? d) (x :: l).
Proof.
  induction l as [|y l IH]; [reflexivity|].
  simpl insert_newest_first.
  destruct (pub_date x <? pub_date y) eqn:E; [|reflexivity].
  apply Z.ltb_lt in E.
  change (filter (fun q => pub_date q =? d) (y :: insert_newest_first x l))
    with (if pub_date y =? d
          then y :: filter (fun q => pub_date q =? d) (insert_newest_first x l)
          else filter (fun q => pub_date q =? d) (insert_newest_first x l)).
  rewrite IH. simpl.
  destruct (pub_date x =? d) eqn:Ex, (pub_date y =? d) eqn:Ey; try reflexivity.
  apply Z.eqb_eq in Ex, Ey. lia.
Qed.

(** ... and so through the whole ordering. *)
Lemma order_by_pub_date_desc_stable (d : datetime) (l : list QuestionRow) :
  filter (fun q => pub_date q =? d) (order_by_pub_date_desc l) =
  filter (fun q => pub_date q =? d) l.
Proof.
  induction l as [|x l IH]; [reflexivity|].
  simpl order_by_pub_date_desc. rewrite insert_newest_first_same_date.
  simpl. now rewrite IH.
Qed.

Lemma latest_question_list_In (now : datetime) (db : DB) (q : QuestionRow) :
  In q (latest_question_list now db) <->
  In q (questions db) /\ pub_date q <= now.
Proof.
  unfold latest_question_list. split.
  - intros H.
    apply (Permutation_in _ (order_by_pub_date_desc_perm _)) in H.
    apply filter_In in H. unfold published in H. now rewrite Z.leb_le in H.
  - intros [H1 H2].
    apply (Permutation_in _ (Permutation_sym (order_by_pub_date_desc_perm _))).
    apply filter_In. unfold published. now rewrite Z.leb_le.
Qed.

(** ** Looking for a text in a page *)

Lemma prefix_app (sub rest : string) :
  String.prefix sub (sub ++ rest) = true.
Proof.
  induction sub as [|a sub IH]; simpl.
  - now destruct rest.
  - destruct (ascii_dec a a) as [_|N]; [exact IH | now destruct N].
Qed.

Lemma contains_prefix (sub s : string) :
  String.prefix sub s = true -> contains sub s = true.
Proof. destruct s; simpl; intros ->; reflexivity. Qed.

Lemma contains_app (sub before rest : string) :
  contains sub (before ++ sub ++ rest) = true.
Proof.
  induction before as [|a before IH].
  - change (contains sub (sub ++ rest) = true).
    apply contains_prefix, prefix_app.
  - change (String a before ++ sub ++ rest)%string
      with (String a (before ++ sub ++ rest)).
    simpl contains. rewrite IH.
    match goal with |- (if ?b then _ else _) = _ => now destruct b end.
Qed.

Lemma contains_page (head foot body : string) :
  contains body (page head foot body) = true.
Proof. apply contains_app. Qed.

(** ** Fetching a row by its key *)

Lemma find_by_id_none (pk : Z) (l : list QuestionRow) :
  find (fun q => id q =? pk) l = None <->
  ~ exists q, In q l /\ id q = pk.
Proof.
  split.
  - intros H (q & Hin & Hid).
    apply (find_none _ _ H) in Hin. apply Z.eqb_neq in Hin. contradiction.
  - intros H. destruct (find _ l) as [q|] eqn:E; [|reflexivity].
    apply find_some in E. destruct E as [Hin Hid]. apply Z.eqb_eq in Hid.
    exfalso. apply H. now exists q.
Qed.

(** With unique keys, the row found for a key is the row of that key. *)
Lemma find_by_id_some (pk : Z) (l : list QuestionRow) (q : QuestionRow) :
  NoDup (map id l) ->
  (find (fun r => id r =? pk) l = Some q <-> In q l /\ id q = pk).
Proof.
  intros Hnd. split.
  - intros H. apply find_some in H. now rewrite Z.eqb_eq in H.
  - induction l as [|y l IH]; intros [Hin Hid]; [contradiction|].
    simpl in Hnd. inversion Hnd as [|? ? Hy Hl]; subst. simpl.
    destruct (id y =? id q) eqn:E.
    + destruct Hin as [->|Hin]; [reflexivity|].
      apply Z.eqb_eq in E. exfalso. apply Hy. rewrite E.
      now apply in_map.
    + destruct Hin as [->|Hin]; [now rewrite Z.eqb_refl in E|].
      now apply IH.
Qed.

(** ** The index and the detail page *)

(** The fixtures of [QuestionIndexViewTests], created and listed at one
    instant. *)
Example test_two_past_questions (now : datetime) :
  let '(question1, db1) := create_question "Past question 1." (-30) now empty_db in
  let '(question2, db2) := create_question "Past question 2." (-5) now db1 in
  latest_question_list now db2 = [question2; question1].
Proof.
  unfold latest_question_list, published; simpl.
  replace (now + timedelta (-30) 0 0 0 <=? now) with true
    by (symmetry; apply Z.leb_le; unfold timedelta; lia).
  replace (now + timedelta (-5) 0 0 0 <=? now) with true
    by (symmetry; apply Z.leb_le; unfold timedelta; lia).
  simpl.
  replace (now + timedelta (-30) 0 0 0 <? now + timedelta (-5) 0 0 0) with true
    by (symmetry; apply Z.ltb_lt; unfold timedelta; lia).
  reflexivity.
Qed.

Example test_future_question_and_past_question (now : datetime) :
  let '(question, db1) := create_question "Past question." (-30) now empty_db in
  let '(_, db2) := create_question "Future question." 30 now db1 in
  latest_question_list now db2 = [question].
Proof.
  unfold latest_question_list, published; simpl.
  replace (now + timedelta (-30) 0 0 0 <=? now) with true
    by (symmetry; apply Z.leb_le; unfold timedelta; lia).
  replace (now + timedelta 30 0 0 0 <=? now) with false
    by (symmetry; apply Z.leb_gt; unfold timedelta; lia).
  reflexivity.
Qed.

(** C5.  The list the index shows holds exactly the questions whose
    [pub_date] is at most [now] (each once per row, none from the future);
    it is ordered newest first; and the rows of any one date stand in it in
    the order they were created.  With two questions dated [now - 30 d] and
    [now - 5 d], created in that order, the list is the second, then the
    first. *)
Theorem index_listing (head foot : string) (now : datetime) (db : DB) :
  (exists body,
     index head foot now db =
     HttpResponse body (IndexContext (latest_question_list now db))) /\
  (forall q, In q (latest_question_list now db) <->
             In q (questions db) /\ pub_date q <= now) /\
  Permutation (latest_question_list now db)
              (filter (published now) (questions db)) /\
  StronglySorted newer_or_same (latest_question_list now db) /\
  (forall d,
     filter (fun q => pub_date q =? d) (latest_question_list now db) =
     filter (fun q => pub_date q =? d)
            (filter (published now) (questions db))) /\
  (forall q1 q2,
     questions db = [q1; q2] ->
     pub_date q1 = now - timedelta 30 0 0 0 ->
     pub_date q2 = now - timedelta 5 0 0 0 ->
     latest_question_list now db = [q2; q1]).
Proof.
  refine (conj _ (conj _ (conj _ (conj _ (conj _ _))))).
  - eexists; reflexivity.
  - apply latest_question_list_In.
  - apply order_by_pub_date_desc_perm.
  - apply order_by_pub_date_desc_sorted.
  - intros d. apply order_by_pub_date_desc_stable.
  - intros q1 q2 Hdb H1 H2.
    assert (E1 : published now q1 = true)
      by (apply Z.leb_le; rewrite H1; unfold timedelta; lia).
    assert (E2 : published now q2 = true)
      by (apply Z.leb_le; rewrite H2; unfold timedelta; lia).
    assert (E3 : (pub_date q1 <? pub_date q2) = true)
      by (apply Z.ltb_lt; rewrite H1, H2; unfold timedelta; lia).
    unfold latest_question_list. rewrite Hdb. simpl. rewrite E1, E2. simpl.
    now rewrite E3.
Qed.

Lemma index_listing_witness :
  latest_question_list 1762250000000000
    {| questions :=
         [ {| id := 1; question_text := "Past question 1.";
              pub_date := 1762250000000000 - timedelta 30 0 0 0;
              author_name := None |};
           {| id := 2; question_text := "Past question 2.";
              pub_date := 1762250000000000 - timedelta 5 0 0 0;
              author_name := None |} ];
       next_id := 3 |} =
  [ {| id := 2; question_text := "Past question 2.";
       pub_date := 1762250000000000 - timedelta 5 0 0 0;
       author_name := None |};
    {| id := 1; question_text := "Past question 1.";
       pub_date := 1762250000000000 - timedelta 30 0 0 0;
       author_name := None |} ].
Proof.
  exact (proj2 (proj2 (proj2 (proj2 (proj2
           (index_listing "" "" 1762250000000000
              {| questions :=
                   [ {| id := 1; question_text := "Past question 1.";
                        pub_date := 1762250000000000 - timedelta 30 0 0 0;
                        author_name := None |};
                     {| id := 2; question_text := "Past question 2.";
                        pub_date := 1762250000000000 - timedelta 5 0 0 0;
                        author_name := None |} ];
                 next_id := 3 |})))))
           _ _ eq_refl eq_refl eq_refl).
Defined.

(** C6.  When no question is published at [now] (the table is empty, or all
    its rows are dated after [now]), the index answers 200, its body
    contains "No polls are available.", and [latest_question_list] is the
    empty list. *)
Theorem index_empty_state (head foot : string) (now : datetime) (db : DB) :
  (forall q, In q (questions db) -> now < pub_date q) ->
  status_code (index head foot now db) = 200 /\
  exists body,
    index head foot now db = HttpResponse body (IndexContext []) /\
    contains "No polls are available." body = true.
Proof.
  intros Hfuture. split; [reflexivity|].
  assert (E : latest_question_list now db = []).
  { destruct (latest_question_list now db) as [|q l] eqn:E; [reflexivity|].
    assert (Hin : In q (latest_question_list now db))
      by (rewrite E; now left).
    apply latest_question_list_In in Hin. destruct Hin as [Hin Hle].
    specialize (Hfuture q Hin). lia. }
  unfold index. rewrite E. eexists. split; [reflexivity|].
  apply contains_page.
Qed.

Lemma index_empty_state_witness :
  status_code (index "<body>" "</body>" 1762250000000000 empty_db) = 200 /\
  status_code
    (index "<body>" "</body>" 1762250000000000
       (snd (create_question "Future question." 30
               1762250000000000 empty_db))) = 200.
Proof.
  split.
  - refine (proj1 (index_empty_state "<body>" "</body>"
                     1762250000000000 empty_db _)).
    intros q [].
  - refine (proj1 (index_empty_state "<body>" "</body>" 1762250000000000
                     (snd (create_question "Future question." 30
                             1762250000000000 empty_db)) _)).
    intros q [<-|[]]. reflexivity.
Defined.

(** The two cases of [QuestionDetailViewTests], created and fetched at one
    instant. *)
Example test_detail_future_question (head foot : string) (now : datetime) :
  let '(future_question, db) :=
    create_question "Future question." 5 now empty_db in
  status_code (detail head foot now db (id future_question)) = 404.
Proof.
  unfold detail, published; simpl.
  replace (now + timedelta 5 0 0 0 <=? now) with false
    by (symmetry; apply Z.leb_gt; unfold timedelta; lia).
  reflexivity.
Qed.

Example test_detail_past_question (head foot : string) (now : datetime) :
  let '(past_question, db) :=
    create_question "Past Question." (-5) now empty_db in
  exists body ctx,
    detail head foot now db (id past_question) = HttpResponse body ctx /\
    contains (question_text past_question) body = true.
Proof.
  unfold detail, published; simpl.
  replace (now + timedelta (-5) 0 0 0 <=? now) with true
    by (symmetry; apply Z.leb_le; unfold timedelta; lia).
  do 2 eexists. split; [reflexivity|]. apply contains_page.
Qed.

(** C7.  In a table with unique keys, the detail page of the key [pk]
    answers 404 exactly when no row has that key or the row that has it is
    dated after [now] (the row being there does not help).  When the row is
    there and dated at most [now], it answers 200 and the body contains the
    question's text.  No GET answers anything else: the index always
    answers 200, and a 404 comes from a detail request only. *)
Theorem detail_not_found_iff
    (head foot : string) (now : datetime) (db : DB) (pk : Z) :
  db_wf db ->
  (status_code (detail head foot now db pk) = 404 <->
   (~ exists q, In q (questions db) /\ id q = pk) \/
   (exists q, In q (questions db) /\ id q = pk /\ now < pub_date q)) /\
  (forall q, In q (questions db) -> id q = pk -> pub_date q <= now ->
     status_code (detail head foot now db pk) = 200 /\
     exists body,
       detail head foot now db pk = HttpResponse body (DetailContext q) /\
       contains (question_text q) body = true) /\
  (forall r,
     status_code (get head foot now db r) = 200 \/
     status_code (get head foot now db r) = 404 /\
     exists pk', r = GetDetail pk').
Proof.
  intros [Hnd _]. refine (conj _ (conj _ _)).
  - unfold detail.
    destruct (find (fun q => id q =? pk) (questions db)) as [q|] eqn:E.
    + apply (find_by_id_some _ _ _ Hnd) in E. destruct E as [Hin Hid].
      unfold published. destruct (pub_date q <=? now) eqn:Ep; simpl.
      * apply Z.leb_le in Ep. split; [discriminate|].
        intros [Hno | (q' & Hin' & Hid' & Hfut)].
        -- exfalso. apply Hno. now exists q.
        -- assert (q' = q).
           { assert (H1 : find (fun r => id r =? pk) (questions db) = Some q)
               by now apply find_by_id_some.
             assert (H2 : find (fun r => id r =? pk) (questions db) = Some q')
               by now apply find_by_id_some.
             congruence. }
           subst q'. lia.
      * apply Z.leb_gt in Ep. split; [|reflexivity].
        intros _. right. now exists q.
    + simpl. split; [|reflexivity].
      intros _. left. now apply find_by_id_none.
  - intros q Hin Hid Hle. unfold detail.
    assert (E : find (fun r => id r =? pk) (questions db) = Some q)
      by now apply find_by_id_some.
    rewrite E. unfold published.
    apply Z.leb_le in Hle. rewrite Hle. split; [reflexivity|].
    eexists. split; [reflexivity | apply contains_page].
  - intros [|pk']; simpl.
    + now left.
    + destruct (detail head foot now db pk'); simpl.
      * now left.
      * right. split; [reflexivity | now exists pk'].
Qed.

Lemma detail_not_found_iff_witness :
  status_code
    (detail "<body>" "</body>" 1762250000000000
       (snd (create_question "Future question." 5
               1762250000000000 empty_db))
       1) = 404.
Proof.
  apply (proj1 (detail_not_found_iff "<body>" "</body>" 1762250000000000
                  (snd (create_question "Future question." 5
                          1762250000000000 empty_db))
                  1 (create_question_wf _ _ _ _ empty_db_wf))).
  right. eexists. split; [left; reflexivity|]. split; reflexivity.
Defined.

(** * Further properties of the models and of the fixtures *)

(** ** How long an entity stays recent *)

(** X1.  An entity dated [t] is recent at the instants from [t] to
    [t + 1 day], both included, and at no other.  So, as the clock moves
    from [now] to a later [now'], an entity already published at [now] that
    is recent at [now'] was recent at [now]: once it has aged out it never
    becomes recent again.  This holds for [Question] and for [Choice]. *)
Theorem recency_expires (now now' t : datetime) :
  now <= now' ->
  (forall q, Question.pub_date q = Some t ->
     (value (Question.was_published_recently now q) = Ok true <->
      t <= now <= t + timedelta 1 0 0 0) /\
     (t <= now ->
      value (Question.was_published_recently now' q) = Ok true ->
      value (Question.was_published_recently now q) = Ok true)) /\
  (forall c, Choice.pub_date c = Some t ->
     (value (Choice.was_published_recently now c) = Ok true <->
      t <= now <= t + timedelta 1 0 0 0) /\
     (t <= now ->
      value (Choice.was_published_recently now' c) = Ok true ->
      value (Choice.was_published_recently now c) = Ok true)).
Proof.
  intros Hclock. split.
  - intros q Hq. rewrite !question_run, Hq. unfold value; simpl fst.
    rewrite !Ok_inj, !in_window_true. lia.
  - intros c Hc. rewrite !choice_run, Hc. unfold value; simpl fst.
    rewrite !Ok_inj, !in_window_true. lia.
Qed.

Lemma recency_expires_witness :
  value (Question.was_published_recently 1762250000000000
           (Model.__init__ (Some "What's new?"%string)
              (Some 1762200000000000) None)) = Ok true.
Proof.
  refine (proj2 (proj1 (recency_expires 1762250000000000 1762260000000000
                          1762200000000000 _)
                   (Model.__init__ (Some "What's new?"%string)
                      (Some 1762200000000000) None)
                   eq_refl) _ eq_refl).
  - lia.
  - lia.
Defined.

(** ** [QuestionModelTests] under a clock that moves *)

(** X2.  With a clock that does not run backwards between the test body
    ([now0]) and the call of the method ([now1]), on any store:
    the test of the old question passes; the test of the recent question
    passes exactly when the clock has moved by at most one second; the test
    of the future question passes exactly when the clock has not moved by
    30 to 31 days. *)
Theorem question_model_tests_outcomes (now0 now1 : datetime) (db : DB) :
  now0 <= now1 ->
  QuestionModelTests.test_was_published_recently_with_old_question
    now0 now1 db = Pass /\
  (QuestionModelTests.test_was_published_recently_with_recent_question
     now0 now1 db = Pass <->
   now1 <= now0 + timedelta 0 0 0 1) /\
  (QuestionModelTests.test_was_published_recently_with_future_question
     now0 now1 db = Pass <->
   now1 < now0 + timedelta 30 0 0 0 \/ now0 + timedelta 31 0 0 0 < now1).
Proof.
  intros Hclock.
  unfold QuestionModelTests.test_was_published_recently_with_old_question,
    QuestionModelTests.test_was_published_recently_with_recent_question,
    QuestionModelTests.test_was_published_recently_with_future_question.
  cbv zeta. unfold Model.save, Model.__init__; simpl Question.pub_date.
  cbv iota beta. rewrite !question_run. unfold value; simpl.
  assert (Hday : timedelta 1 0 0 0 = 86400000000) by reflexivity.
  assert (Hold : timedelta 1 0 0 1 = 86401000000) by reflexivity.
  assert (Hrec : timedelta 0 23 59 59 = 86399000000) by reflexivity.
  assert (Hsec : timedelta 0 0 0 1 = 1000000) by reflexivity.
  assert (H30 : timedelta 30 0 0 0 = 2592000000000) by reflexivity.
  assert (H31 : timedelta 31 0 0 0 = 2678400000000) by reflexivity.
  rewrite Hday, Hold, Hrec, Hsec, H30, H31.
  refine (conj _ (conj _ _)).
  - replace (now1 - 86400000000 <=? now0 - 86401000000) with false
      by (symmetry; apply Z.leb_gt; lia).
    reflexivity.
  - destruct (now1 - 86400000000 <=? now0 - 86399000000) eqn:E1,
             (now0 - 86399000000 <=? now1) eqn:E2; simpl;
      rewrite ?Z.leb_le, ?Z.leb_gt in E1, E2;
      split; intros H; try reflexivity; try discriminate; lia.
  - destruct (now1 - 86400000000 <=? now0 + 2592000000000) eqn:E1,
             (now0 + 2592000000000 <=? now1) eqn:E2; simpl;
      rewrite ?Z.leb_le, ?Z.leb_gt in E1, E2;
      split; intros H; try reflexivity; try discriminate; lia.
Qed.

Lemma question_model_tests_outcomes_witness :
  QuestionModelTests.test_was_published_recently_with_recent_question
    1762250000000000 1762250000250000 empty_db = Pass.
Proof.
  refine (proj2 (proj1 (proj2 (question_model_tests_outcomes
                                 1762250000000000 1762250000250000
                                 empty_db _))) _).
  - lia.
  - vm_compute. discriminate.
Defined.

(** ** [create_question] *)






(** ** A created question and the recency predicate *)


